(** * react-query-factory: the key derivation and arity dispatch of the
      hook factory, checked against its specification

    The development embeds three source files:
    - [src/create-use-query.ts]  ([createUseQuery], and [createUseMutation]
      which is stored next to it),
    - [src/lib/create-use-query.ts]  (the variant taking one object argument),
    - [src/create-queries-from-service.ts]  ([createQueriesFromService]).

    The caching runtime (@tanstack/react-query) is external: a hook is
    modelled by the call it makes to the runtime, that is by the options
    object it hands to [useQuery] or [useMutation]. *)

From stdpp Require Import gmap strings list fin_maps pretty.

#[local] Set Warnings "-register-all".

(** ** JavaScript values *)

(** A declared formal parameter of a function: plain (also optional or
    destructured), with a default value, or a rest parameter. *)
Inductive Formal : Type := Plain | Defaulted | Rest.

(** The values that flow through the factory.  Objects are finite maps of
    their own enumerable string-keyed properties, so that two objects are
    equal exactly when they are structurally equal; prototypes are not
    part of a value.  A function object is known by its declared formal
    parameters, by its identity [ref] and, being an object, by its own
    enumerable properties.  [VThunk callee args] is the arrow function
    [() => callee(...args)] that [createUseQuery] builds.  Numbers are
    restricted to integers. *)
Inductive Val : Type :=
  | VUndefined
  | VNull
  | VBool (b : bool)
  | VNum (n : Z)
  | VStr (s : string)
  | VArr (l : list Val)
  | VObj (m : gmap string Val)
  | VFun (formals : list Formal) (ref : nat) (props : gmap string Val)
  | VThunk (callee : Val) (args : list Val).

(** A JavaScript function of this library, applied to its list of actual
    arguments. *)
Definition JsFn (R : Type) : Type := list Val → R.

(** The i-th formal parameter: [undefined] when the caller passed fewer
    arguments. *)
Definition arg (i : nat) (args : list Val) : Val := nth i args VUndefined.

(** [QueryKey] of the runtime: [readonly unknown[]]. *)
Definition QueryKey : Type := list Val.

(** ToBoolean. *)
Definition truthy (v : Val) : bool :=
  match v with
  | VUndefined | VNull => false
  | VBool b => b
  | VNum n => negb (Z.eqb n 0)
  | VStr s => negb (String.eqb s "")
  | VArr _ | VObj _ | VFun _ _ _ | VThunk _ _ => true
  end.

(** [a || b] *)
Definition js_or (a b : Val) : Val := if truthy a then a else b.

Infix "|||" := js_or (at level 50, left associativity).

Definition is_nullish (v : Val) : bool :=
  match v with
  | VUndefined | VNull => true
  | _ => false
  end.

(** [typeof v === 'function'] *)
Definition typeof_function (v : Val) : bool :=
  match v with
  | VFun _ _ _ | VThunk _ _ => true
  | _ => false
  end.


(** ExpectedArgumentCount: the formal parameters to the left of the first
    one that has a default value or is a rest parameter. *)
Fixpoint expectedArgumentCount (formals : list Formal) : nat :=
  match formals with
  | Plain :: formals' => S (expectedArgumentCount formals')
  | _ => 0
  end.

(** [v.length] of a function value. *)
Definition fn_length (v : Val) : nat :=
  match v with
  | VFun formals _ _ => expectedArgumentCount formals
  | _ => 0
  end.

(** Properties at the indices of an array or of a string. *)
Definition indexed {A : Type} (f : A → Val) (l : list A) : gmap string Val :=
  list_to_map (imap (λ i x, (pretty i, f x)) l).

Fixpoint chars (s : string) : list string :=
  match s with
  | EmptyString => []
  | String c s' => String c EmptyString :: chars s'
  end.

(** The own enumerable string-keyed properties of a value: what
    [Object.keys] enumerates and what an object spread copies. *)
Definition ownProps (v : Val) : gmap string Val :=
  match v with
  | VObj m => m
  | VFun _ _ props => props
  | VArr l => indexed id l
  | VStr s => indexed VStr (chars s)
  | _ => ∅
  end.

(** [v[k]] for an own property ([undefined] when absent; inherited
    properties are not modelled). *)
Definition getProp (v : Val) (k : string) : Val :=
  default VUndefined (ownProps v !! k).

(** [v?.k] *)
Definition optProp (v : Val) (k : string) : Val :=
  if is_nullish v then VUndefined else getProp v k.

(** [f?.(a)] for an optional key function; its result is a [QueryKey]. *)
Definition optCall (f : option (JsFn QueryKey)) (a : Val) : Val :=
  match f with
  | Some f => VArr (f [a])
  | None => VUndefined
  end.

(** [{ ...target, ...src }]: the properties of [src] are defined over
    those already in the literal; spreading [undefined], [null], a number
    or a boolean copies nothing. *)
Definition spread (src : Val) (target : gmap string Val) : gmap string Val :=
  ownProps src ∪ target.

(** ** Synchronous completion: a value or a thrown error *)

Inductive JsError : Type := TypeError.

Inductive Completion (A : Type) : Type :=
  | Return (a : A)
  | Throw (e : JsError).

Arguments Return {A} a.
Arguments Throw {A} e.

Definition bind {A B : Type} (c : Completion A) (k : A → Completion B)
  : Completion B :=
  match c with
  | Return a => k a
  | Throw e => Throw e
  end.

Notation "x ←! c ; k" := (bind c (λ x, k))
  (at level 20, c at level 100, k at level 200, right associativity,
   only parsing).

(** [Object.keys(v)]: throws on [undefined] and [null], enumerates the own
    properties of anything else.  The order of enumeration is that of the
    map, not the insertion order; [createQueriesFromService] does not
    depend on it. *)
Definition Object_keys (v : Val) : Completion (list string) :=
  if is_nullish v then Throw TypeError
  else Return (map_to_list (ownProps v)).*1.

(** ** The external runtime *)

Module ReactQuery.

(** The two primitives of the runtime, each with the single options
    object it receives. *)
Inductive HookCall : Type :=
  | useQuery (opts : gmap string Val)
  | useMutation (opts : gmap string Val).

Definition request (c : HookCall) : gmap string Val :=
  match c with
  | useQuery opts | useMutation opts => opts
  end.

(** The call on a wrapped function that results when the runtime invokes
    the execution function [f] with [actuals]. *)
Definition calls (f : Val) (actuals : list Val) : option (Val * list Val) :=
  match f with
  | VThunk callee args => Some (callee, args)
  | VFun _ _ _ => Some (f, actuals)
  | _ => None
  end.

End ReactQuery.

(** ** src/create-use-query.ts *)

Definition createUseQuery (expectsParams : bool) (serviceFn : Val)
    (queryKey : option (JsFn QueryKey)) : JsFn ReactQuery.HookCall :=
  λ args,
    let params := arg 0 args in
    let options := arg 1 args in
    let computedKey :=
      optCall queryKey params ||| optProp options "queryKey" ||| VArr [] in
    let getOptions := if expectsParams then options else params in
    ReactQuery.useQuery
      (<["queryKey" := computedKey]>
         (spread getOptions {["queryFn" := VThunk serviceFn [params]]})).

Definition createUseMutation (serviceFn : Val) : JsFn ReactQuery.HookCall :=
  λ args,
    let options := arg 0 args in
    ReactQuery.useMutation (spread options {["mutationFn" := serviceFn]}).

(** ** src/lib/create-use-query.ts *)

Module Lib.

Record CreateUseQueryParams : Type := {
  expectsParams : bool;
  serviceFn : Val;
  queryKey : option (JsFn QueryKey);
}.

Definition createUseQuery (params : CreateUseQueryParams)
  : JsFn ReactQuery.HookCall :=
  let '{| expectsParams := expectsParams; serviceFn := serviceFn;
          queryKey := queryKey |} := params in
  λ args,
    let params := arg 0 args in
    let options := arg 1 args in
    let computedKey :=
      optCall queryKey params ||| optProp options "queryKey" ||| VArr [] in
    let getOptions := if expectsParams then options else params in
    ReactQuery.useQuery
      (<["queryKey" := computedKey]>
         (spread getOptions {["queryFn" := VThunk serviceFn [params]]})).

End Lib.

(** ** src/create-queries-from-service.ts *)

Record Triad : Type := {
  useQuery : JsFn ReactQuery.HookCall;
  useMutation : JsFn ReactQuery.HookCall;
  queryKey : JsFn QueryKey;
}.

(** The object literal of the branch [expectsParams]. *)
Definition triadWithParams (queryKeyPrefix key : string) (serviceFn : Val)
  : Triad :=
  {| useQuery :=
       createUseQuery true serviceFn
         (Some (λ args, [VStr queryKeyPrefix; VStr key; arg 0 args]));
     useMutation := createUseMutation serviceFn;
     queryKey := λ args, [VStr queryKeyPrefix; VStr key; arg 0 args] |}.

(** The object literal of the other branch. *)
Definition triadWithoutParams (queryKeyPrefix key : string) (serviceFn : Val)
  : Triad :=
  {| useQuery :=
       createUseQuery false serviceFn
         (Some (λ args, [VStr queryKeyPrefix; VStr key; arg 0 args]));
     useMutation := createUseMutation serviceFn;
     queryKey := λ args, [VStr queryKeyPrefix; VStr key; arg 0 args] |}.

(** The object [queries] under construction: its own properties, and its
    prototype when that is a triad ([None] is [Object.prototype], which
    the object has from the literal [{}]). *)
Record Queries : Type := {
  entries : gmap string Triad;
  prototype : option Triad;
}.

(** [{}] *)
#[global] Instance queries_empty : Empty Queries :=
  {| entries := ∅; prototype := None |}.

(** [queries[name]], when it evaluates to a triad: an own property, or, at
    the name [__proto__], the prototype that the accessor of
    [Object.prototype] returns. *)
#[global] Instance queries_lookup : Lookup string Triad Queries :=
  λ name queries,
    match entries queries !! name with
    | Some t => Some t
    | None => if decide (name = "__proto__") then prototype queries else None
    end.

(** [queries[key] = t].  An own property is overwritten.  Otherwise the
    name [__proto__] reaches the setter of [Object.prototype], which
    replaces the prototype of [queries] by the object [t] and creates no
    own property; every other name becomes an own property. *)
Definition assign (queries : Queries) (key : string) (t : Triad) : Queries :=
  match entries queries !! key with
  | None =>
      if decide (key = "__proto__")
      then {| entries := entries queries; prototype := Some t |}
      else {| entries := <[key := t]> (entries queries);
              prototype := prototype queries |}
  | Some _ =>
      {| entries := <[key := t]> (entries queries);
         prototype := prototype queries |}
  end.

(** The body of the [forEach] callback, on the accumulator [queries]. *)
Definition registerKey (service : Val) (queryKeyPrefix : string)
    (queries : Queries) (key : string) : Queries :=
  let serviceFn := getProp service key in
  if typeof_function serviceFn then
    let expectsParams := bool_decide (0 < fn_length serviceFn) in
    if expectsParams
    then assign queries key (triadWithParams queryKeyPrefix key serviceFn)
    else assign queries key (triadWithoutParams queryKeyPrefix key serviceFn)
  else queries.

Definition createQueriesFromService (service : Val) (queryKeyPrefix : string)
  : Completion Queries :=
  keys ←! Object_keys service;
  Return (foldl (registerKey service queryKeyPrefix) ∅ keys).

(** ** Names for the parts of the hooks that the properties speak of *)

(** The key that [createUseQuery] computes at line 49. *)
Definition computedKey (queryKey : option (JsFn QueryKey)) (args : list Val)
  : Val :=
  optCall queryKey (arg 0 args) ||| optProp (arg 1 args) "queryKey" ||| VArr [].

(** The bag that [getOptions()] returns: the second argument of the hook
    when [expectsParams] holds, the first one otherwise. *)
Definition getOptions (expectsParams : bool) (args : list Val) : Val :=
  if expectsParams then arg 1 args else arg 0 args.

(** The triad built for a function entry, by its [length]. *)
Definition compiledTriad (queryKeyPrefix key : string) (serviceFn : Val)
  : Triad :=
  if bool_decide (0 < fn_length serviceFn)
  then triadWithParams queryKeyPrefix key serviceFn
  else triadWithoutParams queryKeyPrefix key serviceFn.

(** The execution function found in a request, and the call it makes on
    the wrapped function once the runtime runs it. *)
Definition wrappedCall (c : ReactQuery.HookCall) (execName : string)
    (actuals : list Val) : option (Val * list Val) :=
  ReactQuery.request c !! execName ≫= λ f, ReactQuery.calls f actuals.

(** ** The service of the test suite *)

(** [() => Promise.resolve('data')] *)
Definition getData : Val := VFun [] 1 ∅.

(** [(data) => Promise.resolve(`posted ${data.name}`)] *)
Definition postData : Val := VFun [Plain] 2 ∅.

Definition mockService : Val :=
  VObj {["getData" := getData; "postData" := postData]}.

Definition mockQueries : Queries :=
  foldl (registerKey mockService "testPrefix") ∅
    (map_to_list (ownProps mockService)).*1.



(** * Properties *)

(** ** Reading the object handed to the runtime *)

Section request_lookup.
Context (bag : Val) (key fn : Val) (fnName : string).

Lemma request_key_entry (m : gmap string Val) :
  (<["queryKey" := key]> m) !! "queryKey" = Some key.
Proof. apply lookup_insert_eq. Qed.

(** The execution function of the literal comes before the spread: an
    entry of the same name in the bag replaces it. *)
Lemma spread_exec_entry :
  spread bag {[fnName := fn]} !! fnName
  = Some (default fn (ownProps bag !! fnName)).
Proof.
  unfold spread. rewrite lookup_union, lookup_singleton_eq.
  by destruct (ownProps bag !! fnName).
Qed.

Lemma spread_other_entry (k : string) :
  k ≠ fnName → spread bag {[fnName := fn]} !! k = ownProps bag !! k.
Proof.
  intros Hk. unfold spread.
  rewrite lookup_union, lookup_singleton_ne by done.
  by destruct (ownProps bag !! k).
Qed.
End request_lookup.

Lemma createUseQuery_key expectsParams serviceFn queryKey args :
  ReactQuery.request (createUseQuery expectsParams serviceFn queryKey args)
    !! "queryKey" = Some (computedKey queryKey args).
Proof. apply request_key_entry. Qed.

Lemma createUseQuery_queryFn expectsParams serviceFn queryKey args :
  ReactQuery.request (createUseQuery expectsParams serviceFn queryKey args)
    !! "queryFn"
  = Some (default (VThunk serviceFn [arg 0 args])
            (ownProps (getOptions expectsParams args) !! "queryFn")).
Proof.
  cbn. rewrite lookup_insert_ne by done. apply spread_exec_entry.
Qed.

Lemma createUseQuery_other expectsParams serviceFn queryKey args k :
  k ≠ "queryKey" → k ≠ "queryFn" →
  ReactQuery.request (createUseQuery expectsParams serviceFn queryKey args) !! k
  = ownProps (getOptions expectsParams args) !! k.
Proof.
  intros Hk1 Hk2. cbn. rewrite lookup_insert_ne by done.
  by apply spread_other_entry.
Qed.

Lemma Lib_createUseQuery_eq e f q :
  Lib.createUseQuery
    {| Lib.expectsParams := e; Lib.serviceFn := f; Lib.queryKey := q |}
  = createUseQuery e f q.
Proof. reflexivity. Qed.

(** A key function produces an array, and every array is truthy. *)
Lemma computedKey_Some kf args :
  computedKey (Some kf) args = VArr (kf [arg 0 args]).
Proof. reflexivity. Qed.

Lemma computedKey_None args :
  computedKey None args = optProp (arg 1 args) "queryKey" ||| VArr [].
Proof. reflexivity. Qed.

(** ** The table built by [createQueriesFromService] *)

Lemma queries_lookup_unfold (queries : Queries) name :
  queries !! name =
    match entries queries !! name with
    | Some t => Some t
    | None => if decide (name = "__proto__") then prototype queries else None
    end.
Proof. reflexivity. Qed.

Lemma queries_lookup_empty name : (∅ : Queries) !! name = None.
Proof.
  rewrite queries_lookup_unfold. cbn [entries prototype queries_empty empty].
  rewrite lookup_empty. by destruct (decide _).
Qed.

Lemma assign_no_own_proto queries key t :
  entries queries !! "__proto__" = None →
  entries (assign queries key t) !! "__proto__" = None.
Proof.
  intros Hinv. unfold assign.
  destruct (entries queries !! key) eqn:Hkey.
  - cbn. rewrite lookup_insert_ne; [done|]. intros ->. congruence.
  - destruct (decide (key = "__proto__")); cbn; [done|].
    by rewrite lookup_insert_ne.
Qed.

Lemma assign_lookup queries key t k :
  entries queries !! "__proto__" = None →
  assign queries key t !! k = if decide (k = key) then Some t else queries !! k.
Proof.
  intros Hinv. rewrite !queries_lookup_unfold. unfold assign.
  destruct (entries queries !! key) eqn:Hkey.
  - cbn [entries prototype]. destruct (decide (k = key)) as [->|Hne].
    + by rewrite lookup_insert_eq.
    + by rewrite lookup_insert_ne.
  - destruct (decide (key = "__proto__")) as [->|Hp]; cbn [entries prototype].
    + destruct (decide (k = "__proto__")) as [->|Hne].
      * by rewrite Hinv.
      * done.
    + destruct (decide (k = key)) as [->|Hne].
      * by rewrite lookup_insert_eq.
      * by rewrite lookup_insert_ne.
Qed.

Lemma registerKey_unfold service ns queries key :
  registerKey service ns queries key =
    if typeof_function (getProp service key)
    then assign queries key (compiledTriad ns key (getProp service key))
    else queries.
Proof.
  unfold registerKey, compiledTriad.
  destruct (typeof_function _); [|done]. by case_bool_decide.
Qed.

Lemma foldl_registerKey_no_own_proto service ns keys queries :
  entries queries !! "__proto__" = None →
  entries (foldl (registerKey service ns) queries keys) !! "__proto__" = None.
Proof.
  revert queries. induction keys as [|key keys IH]; intros queries Hinv;
    cbn [foldl]; [done|].
  apply IH. rewrite registerKey_unfold.
  destruct (typeof_function (getProp service key)); [|done].
  by apply assign_no_own_proto.
Qed.

Lemma foldl_registerKey_lookup service ns keys queries k :
  entries queries !! "__proto__" = None →
  foldl (registerKey service ns) queries keys !! k =
    if decide (k ∈ keys ∧ typeof_function (getProp service k) = true)
    then Some (compiledTriad ns k (getProp service k))
    else queries !! k.
Proof.
  revert queries. induction keys as [|key keys IH]; intros queries Hinv;
    cbn [foldl].
  - destruct (decide _) as [[H _]|]; [|done]. by apply elem_of_nil in H.
  - assert (Hinv' : entries (registerKey service ns queries key)
                      !! "__proto__" = None).
    { rewrite registerKey_unfold.
      destruct (typeof_function (getProp service key)); [|done].
      by apply assign_no_own_proto. }
    rewrite (IH _ Hinv'), registerKey_unfold.
    assert (Hin : k ∈ key :: keys ↔ k = key ∨ k ∈ keys) by apply elem_of_cons.
    destruct (decide (k = key)) as [->|Hne].
    + destruct (typeof_function (getProp service key)) eqn:Hfn.
      * rewrite (assign_lookup _ _ _ _ Hinv).
        destruct (decide (key = key)) as [_|]; [|done].
        destruct (decide _), (decide _) as [|H2]; try done;
          exfalso; apply H2; (split; [tauto|done]).
      * destruct (decide _) as [[_ H1]|], (decide _) as [[_ H2]|];
          congruence.
    + assert (Hq : (if typeof_function (getProp service key)
                    then assign queries key
                           (compiledTriad ns key (getProp service key))
                    else queries) !! k = queries !! k).
      { destruct (typeof_function (getProp service key)); [|done].
        rewrite (assign_lookup _ _ _ _ Hinv).
        by destruct (decide (k = key)). }
      rewrite Hq.
      destruct (decide _) as [[H1 H1']|H1], (decide _) as [[H2 H2']|H2];
        try done.
      * exfalso. apply H2. split; [tauto|done].
      * exfalso. apply H1. split; [|done]. apply Hin in H2. tauto.
Qed.

Lemma getProp_own service k v :
  ownProps service !! k = Some v → getProp service k = v.
Proof. unfold getProp. by intros ->. Qed.

(** What the compiled table holds at every name. *)
Lemma compiled_lookup service ns (queries : Queries) :
  createQueriesFromService service ns = Return queries →
  ∀ key, queries !! key =
    match ownProps service !! key with
    | Some fn =>
        if typeof_function fn then Some (compiledTriad ns key fn) else None
    | None => None
    end.
Proof.
  unfold createQueriesFromService, Object_keys.
  destruct (is_nullish service); [done|]. cbn.
  intros [= <-] key. rewrite foldl_registerKey_lookup by done.
  rewrite queries_lookup_empty.
  destruct (ownProps service !! key) as [fn|] eqn:Hown.
  - rewrite (getProp_own _ _ _ Hown).
    destruct (typeof_function fn); case_decide as H; try done.
    + exfalso. apply H. split; [|done].
      apply list_elem_of_fmap. exists (key, fn). split; [done|].
      by apply elem_of_map_to_list.
    + by destruct H.
  - case_decide as H; [|done]. destruct H as [H _].
    apply list_elem_of_fmap in H as [[k' v] [-> H]].
    apply elem_of_map_to_list in H. simpl in Hown. congruence.
Qed.

(** The compiled table never has an own property [__proto__]: a function
    stored under that name in the service becomes the prototype. *)
Lemma compiled_no_own_proto service ns (queries : Queries) :
  createQueriesFromService service ns = Return queries →
  entries queries !! "__proto__" = None.
Proof.
  unfold createQueriesFromService, Object_keys.
  destruct (is_nullish service); [done|]. cbn.
  intros [= <-]. by apply foldl_registerKey_no_own_proto.
Qed.

Lemma compiled_entries service ns (queries : Queries) key :
  createQueriesFromService service ns = Return queries →
  entries queries !! key =
    if decide (key = "__proto__") then None else queries !! key.
Proof.
  intros Hc. pose proof (compiled_no_own_proto _ _ _ Hc) as Hinv.
  rewrite queries_lookup_unfold.
  destruct (decide (key = "__proto__")) as [->|Hne]; [done|].
  by destruct (entries queries !! key).
Qed.

Lemma compiled_prototype service ns (queries : Queries) :
  createQueriesFromService service ns = Return queries →
  prototype queries = queries !! "__proto__".
Proof.
  intros Hc. rewrite queries_lookup_unfold.
  by rewrite (compiled_no_own_proto _ _ _ Hc).
Qed.

Lemma compiled_returns service ns :
  is_nullish service = false →
  ∃ queries, createQueriesFromService service ns = Return queries.
Proof.
  intros H. unfold createQueriesFromService, Object_keys. rewrite H. cbn. eauto.
Qed.

Lemma compiled_throws service ns :
  is_nullish service = true →
  createQueriesFromService service ns = Throw TypeError.
Proof.
  intros H. unfold createQueriesFromService, Object_keys. by rewrite H.
Qed.

(** Every compiled triad is one of the two literals for the function
    stored under its name. *)
Lemma compiled_triad_inv service ns queries op t :
  createQueriesFromService service ns = Return queries →
  queries !! op = Some t →
  ∃ fn, ownProps service !! op = Some fn ∧ typeof_function fn = true ∧
        t = compiledTriad ns op fn.
Proof.
  intros Hc Ht. rewrite (compiled_lookup _ _ _ Hc) in Ht.
  destruct (ownProps service !! op) as [fn|]; [|done].
  destruct (typeof_function fn) eqn:Hfn; [|done].
  injection Ht as <-. eauto.
Qed.

Lemma compiledTriad_queryKey ns op fn args :
  queryKey (compiledTriad ns op fn) args = [VStr ns; VStr op; arg 0 args].
Proof. unfold compiledTriad. by case_bool_decide. Qed.

Lemma mockQueries_compiled :
  createQueriesFromService mockService "testPrefix" = Return mockQueries.
Proof. reflexivity. Qed.

Lemma mockQueries_getData :
  mockQueries !! "getData"
  = Some (triadWithoutParams "testPrefix" "getData" getData).
Proof. reflexivity. Qed.

Lemma mockQueries_postData :
  mockQueries !! "postData"
  = Some (triadWithParams "testPrefix" "postData" postData).
Proof. reflexivity. Qed.

(** ** The claims *)

(** C1. Every operation compiled under namespace [ns] and name [op] has the
    default key function returning the triple [[ns, op, parameter]]; called
    with no argument it returns [[ns, op, undefined]]. *)
Theorem default_key_triple service ns queries op t :
  createQueriesFromService service ns = Return queries →
  queries !! op = Some t →
  (∀ parameter, queryKey t [parameter] = [VStr ns; VStr op; parameter]) ∧
  queryKey t [] = [VStr ns; VStr op; VUndefined].
Proof.
  intros Hc Ht.
  destruct (compiled_triad_inv _ _ _ _ _ Hc Ht) as (fn & _ & _ & ->).
  split; [intros parameter|]; apply compiledTriad_queryKey.
Qed.

(** The scenario of the test suite: [key()] of [getData] under
    ['testPrefix']. *)
Lemma default_key_triple_getData :
  createQueriesFromService mockService "testPrefix" = Return mockQueries ∧
  mockQueries !! "getData"
    = Some (triadWithoutParams "testPrefix" "getData" getData) ∧
  queryKey (triadWithoutParams "testPrefix" "getData" getData) []
    = [VStr "testPrefix"; VStr "getData"; VUndefined].
Proof.
  split; [reflexivity|]. split; [reflexivity|].
  apply (default_key_triple mockService "testPrefix" mockQueries "getData");
    reflexivity.
Defined.

(** C2. Under one namespace, two invocations of compiled key functions give
    equal keys when the operation name and the parameter are equal, and
    different keys when the names differ or the names agree and the
    parameters differ.  Structural equality of values is equality of
    [Val]: objects are maps of their properties. *)
Theorem key_equal_iff service ns queries op1 op2 t1 t2 p1 p2 :
  createQueriesFromService service ns = Return queries →
  queries !! op1 = Some t1 →
  queries !! op2 = Some t2 →
  (op1 = op2 → p1 = p2 → queryKey t1 [p1] = queryKey t2 [p2]) ∧
  (op1 ≠ op2 ∨ (op1 = op2 ∧ p1 ≠ p2) → queryKey t1 [p1] ≠ queryKey t2 [p2]).
Proof.
  intros Hc Ht1 Ht2.
  destruct (compiled_triad_inv _ _ _ _ _ Hc Ht1) as (fn1 & _ & _ & ->).
  destruct (compiled_triad_inv _ _ _ _ _ Hc Ht2) as (fn2 & _ & _ & ->).
  rewrite !compiledTriad_queryKey. cbn [arg nth].
  split.
  - by intros -> ->.
  - intros Hdiff Heq. injection Heq as Hop Hp.
    destruct Hdiff as [Hne|[_ Hne]]; by apply Hne.
Qed.

Lemma key_equal_iff_mock :
  (queryKey (triadWithParams "testPrefix" "postData" postData)
     [VObj {["name" := VStr "x"]}]
   = queryKey (triadWithParams "testPrefix" "postData" postData)
       [VObj {["name" := VStr "x"]}]) ∧
  (queryKey (triadWithoutParams "testPrefix" "getData" getData) [VNum 1]
   ≠ queryKey (triadWithParams "testPrefix" "postData" postData) [VNum 1]) ∧
  (queryKey (triadWithParams "testPrefix" "postData" postData) [VNum 1]
   ≠ queryKey (triadWithParams "testPrefix" "postData" postData) [VNum 2]).
Proof.
  split; [|split].
  - apply (key_equal_iff mockService "testPrefix" mockQueries
             "postData" "postData"); reflexivity.
  - apply (key_equal_iff mockService "testPrefix" mockQueries
             "getData" "postData"); try reflexivity.
    left. discriminate.
  - apply (key_equal_iff mockService "testPrefix" mockQueries
             "postData" "postData"); try reflexivity.
    right. split; [reflexivity|discriminate].
Defined.

(** C3. Evaluation at the failing input.  [getData] is compiled as a
    zero-arity operation; [read({enabled: false})] hands the runtime an
    execution function that calls [getData] with the options bag as its
    argument, not with no parameter.  The bag itself reaches the runtime:
    its [enabled] entry is forwarded. *)
Theorem zero_arity_read_calls_service_with_options :
  let bag := VObj {["enabled" := VBool false]} in
  let read := useQuery (triadWithoutParams "testPrefix" "getData" getData) in
  mockQueries !! "getData"
    = Some (triadWithoutParams "testPrefix" "getData" getData) ∧
  wrappedCall (read [bag]) "queryFn" [] = Some (getData, [bag]) ∧
  arg 0 [bag] ≠ VUndefined ∧
  ReactQuery.request (read [bag]) !! "enabled" = Some (VBool false) ∧
  wrappedCall (read []) "queryFn" [] = Some (getData, [VUndefined]).
Proof.
  cbn zeta. split; [reflexivity|]. split; [reflexivity|].
  split; [discriminate|]. split; reflexivity.
Qed.

(** C4. Evaluation at the failing input.  For the zero-arity [getData],
    [read({enabled: false})] derives the key
    [['testPrefix', 'getData', {enabled: false}]]: the options bag sits in
    the parameter slot, and the key differs from [key()]. *)
Theorem zero_arity_read_key_embeds_options :
  let bag := VObj {["enabled" := VBool false]} in
  let t := triadWithoutParams "testPrefix" "getData" getData in
  mockQueries !! "getData" = Some t ∧
  ReactQuery.request (useQuery t [bag]) !! "queryKey"
    = Some (VArr [VStr "testPrefix"; VStr "getData"; bag]) ∧
  ReactQuery.request (useQuery t [bag]) !! "queryKey"
    ≠ Some (VArr (queryKey t [])) ∧
  ReactQuery.request (useQuery t []) !! "queryKey"
    = Some (VArr [VStr "testPrefix"; VStr "getData"; VUndefined]).
Proof.
  cbn zeta. split; [reflexivity|]. split; [reflexivity|].
  split; [|reflexivity].
  cbn [useQuery queryKey triadWithoutParams].
  rewrite createUseQuery_key, computedKey_Some. cbn [arg nth]. discriminate.
Qed.

(** The same holds of every zero-arity triad and every first argument. *)
Lemma triadWithoutParams_read ns op fn a rest :
  ReactQuery.request (useQuery (triadWithoutParams ns op fn) (a :: rest))
    !! "queryKey" = Some (VArr [VStr ns; VStr op; a]) ∧
  (ownProps a !! "queryFn" = None →
   wrappedCall (useQuery (triadWithoutParams ns op fn) (a :: rest))
     "queryFn" [] = Some (fn, [a])).
Proof.
  cbn [useQuery triadWithoutParams]. split.
  - by rewrite createUseQuery_key, computedKey_Some.
  - intros Hno. unfold wrappedCall.
    rewrite createUseQuery_queryFn. cbn [getOptions arg nth].
    by rewrite Hno.
Qed.

(** C5. Evaluation at the failing input.  A zero-arity hook made with the
    key function [(p) => ['custom', p]] and read with the options bag
    [{enabled: false}] registers the key [['custom', {enabled: false}]]:
    the key function is applied to the options bag, not to the parameter
    of the operation, which is [undefined] as in a read without
    argument. *)
Theorem zero_arity_key_function_receives_options :
  let bag := VObj {["enabled" := VBool false]} in
  let keyFn : JsFn QueryKey := λ args, [VStr "custom"; arg 0 args] in
  let read := createUseQuery false getData (Some keyFn) in
  ReactQuery.request (read [bag]) !! "queryKey"
    = Some (VArr [VStr "custom"; bag]) ∧
  ReactQuery.request (read [bag]) !! "queryKey"
    ≠ Some (VArr (keyFn [VUndefined])) ∧
  ReactQuery.request (read []) !! "queryKey"
    = Some (VArr (keyFn [VUndefined])).
Proof.
  cbn zeta. split; [reflexivity|]. split; [|reflexivity].
  rewrite createUseQuery_key, computedKey_Some. cbn [arg nth]. discriminate.
Qed.

(** C6, as stated, fails: an options bag that carries [queryFn] (for a
    read) or [mutationFn] (for a write) replaces the execution function of
    this library in the object the runtime receives. *)
Lemma caller_execution_function_wins :
  let own := VFun [] 7 ∅ in
  ReactQuery.request
    (useQuery (triadWithParams "testPrefix" "postData" postData)
       [VStr "x"; VObj {["queryFn" := own]}]) !! "queryFn"
  = Some own ∧
  Some own ≠ Some (VThunk postData [VStr "x"]) ∧
  ReactQuery.request
    (useMutation (triadWithParams "testPrefix" "postData" postData)
       [VObj {["mutationFn" := own]}]) !! "mutationFn"
  = Some own ∧
  Some own ≠ Some postData.
Proof. cbn zeta. repeat split; (reflexivity || discriminate). Qed.

(** C6, amended.  In a read the key entry is always the computed key; the
    execution function of this library ([queryFn] for a read, [mutationFn]
    for a write) is a default that an entry of the same name in the bag
    replaces; a write attaches no key; every other entry of the bag is
    forwarded as it is, and nothing else is added. *)
Theorem reserved_entries_frame expectsParams serviceFn keyFn args :
  let bag := getOptions expectsParams args in
  let query := ReactQuery.request
                 (createUseQuery expectsParams serviceFn keyFn args) in
  let mutation := ReactQuery.request (createUseMutation serviceFn args) in
  query !! "queryKey" = Some (computedKey keyFn args) ∧
  query !! "queryFn"
    = Some (default (VThunk serviceFn [arg 0 args])
              (ownProps bag !! "queryFn")) ∧
  (∀ k, k ≠ "queryKey" → k ≠ "queryFn" → query !! k = ownProps bag !! k) ∧
  mutation !! "mutationFn"
    = Some (default serviceFn (ownProps (arg 0 args) !! "mutationFn")) ∧
  (∀ k, k ≠ "mutationFn" → mutation !! k = ownProps (arg 0 args) !! k).
Proof.
  cbn zeta. split; [apply createUseQuery_key|].
  split; [apply createUseQuery_queryFn|].
  split; [intros k; apply createUseQuery_other|].
  split; [apply spread_exec_entry|].
  intros k Hk. by apply spread_other_entry.
Qed.

Lemma reserved_entries_frame_mock :
  ReactQuery.request
    (createUseQuery true postData None
       [VStr "x"; VObj {["enabled" := VBool true]}]) !! "enabled"
  = Some (VBool true) ∧
  ReactQuery.request
    (createUseMutation postData [VObj {["retry" := VNum 3]}]) !! "retry"
  = Some (VNum 3).
Proof.
  pose proof (reserved_entries_frame true postData None
                [VStr "x"; VObj {["enabled" := VBool true]}]) as Hq.
  pose proof (reserved_entries_frame true postData None
                [VObj {["retry" := VNum 3]}]) as Hm.
  cbn zeta in Hq, Hm.
  destruct Hq as (_ & _ & Hq & _), Hm as (_ & _ & _ & _ & Hm).
  split.
  - rewrite (Hq "enabled"); [reflexivity|discriminate|discriminate].
  - rewrite (Hm "retry"); [reflexivity|discriminate].
Defined.




(** C8, as stated, fails: a service that is a number, or an array without
    functions, compiles without any error, to the empty table. *)
Lemma compile_accepts_non_mapping :
  createQueriesFromService (VNum 42) "testPrefix" = Return ∅ ∧
  createQueriesFromService (VArr [VNum 1; VStr "a"]) "testPrefix" = Return ∅ ∧
  ¬ (∃ e, createQueriesFromService (VNum 42) "testPrefix" = Throw e).
Proof.
  split; [reflexivity|]. split; [reflexivity|]. intros [e He]. discriminate.
Qed.

(** C8, amended.  The compiler validates nothing itself.  It throws, at
    once, only when the service is [undefined] or [null], and then the
    error is the [TypeError] of the property enumeration; on every other
    value it returns a table, whose entries are at the names, other than
    [__proto__], of the function-valued enumerable properties of that
    value and nowhere else. *)
Theorem compile_throws_only_on_nullish service ns :
  (is_nullish service = true ∧
   createQueriesFromService service ns = Throw TypeError) ∨
  (is_nullish service = false ∧
   ∃ queries,
     createQueriesFromService service ns = Return queries ∧
     ∀ key, is_Some (entries queries !! key) ↔
            key ≠ "__proto__" ∧
            ∃ fn, ownProps service !! key = Some fn ∧
                  typeof_function fn = true).
Proof.
  destruct (is_nullish service) eqn:Hn.
  - left. split; [done|]. by apply compiled_throws.
  - right. split; [done|].
    destruct (compiled_returns service ns Hn) as [queries Hc].
    exists queries. split; [done|]. intros key.
    rewrite (compiled_entries _ _ _ key Hc), (compiled_lookup _ _ _ Hc).
    destruct (decide (key = "__proto__")) as [->|Hne].
    { split; [by intros [? ?]|]. by intros [? _]. }
    destruct (ownProps service !! key) as [fn|].
    + destruct (typeof_function fn) eqn:Hfn.
      * split; [eauto|]. intros _. eauto.
      * split; [by intros [? ?]|]. intros (_ & fn' & [= <-] & ?). congruence.
    + split; [by intros [? ?]|]. by intros (_ & ? & ? & _).
Qed.

(** C9. In a read of a one-arity compiled operation, the third element of
    the key and the argument that the execution closure of this library
    passes to the wrapped function are the same value, the parameter of
    the read.  That closure is the [queryFn] the runtime receives unless
    the options bag carries a [queryFn] of its own. *)
Theorem key_and_execution_agree service ns queries op fn parameter options :
  createQueriesFromService service ns = Return queries →
  ownProps service !! op = Some fn →
  0 < fn_length fn →
  ∃ t,
    queries !! op = Some t ∧
    ReactQuery.request (useQuery t [parameter; options]) !! "queryKey"
      = Some (VArr [VStr ns; VStr op; parameter]) ∧
    ReactQuery.request (useQuery t [parameter; options]) !! "queryFn"
      = Some (default (VThunk fn [parameter])
                (ownProps options !! "queryFn")) ∧
    ReactQuery.calls (VThunk fn [parameter]) [] = Some (fn, [parameter]) ∧
    (ownProps options !! "queryFn" = None →
     wrappedCall (useQuery t [parameter; options]) "queryFn" []
       = Some (fn, [parameter])).
Proof.
  intros Hc Hown Hlen.
  assert (Hfn : typeof_function fn = true)
    by (destruct fn; simpl in *; done || lia).
  exists (triadWithParams ns op fn).
  split.
  { rewrite (compiled_lookup _ _ _ Hc), Hown, Hfn. unfold compiledTriad.
    by rewrite bool_decide_eq_true_2. }
  cbn [useQuery triadWithParams].
  split; [by rewrite createUseQuery_key, computedKey_Some|].
  split; [by rewrite createUseQuery_queryFn|].
  split; [done|].
  intros Hno. unfold wrappedCall. rewrite createUseQuery_queryFn.
  cbn [getOptions arg nth]. by rewrite Hno.
Qed.

Lemma key_and_execution_agree_postData :
  let read := useQuery (triadWithParams "testPrefix" "postData" postData)
                [VObj {["name" := VStr "x"]}; VObj {["enabled" := VBool true]}]
  in
  ReactQuery.request read !! "queryKey"
    = Some (VArr [VStr "testPrefix"; VStr "postData";
                  VObj {["name" := VStr "x"]}]) ∧
  wrappedCall read "queryFn" []
    = Some (postData, [VObj {["name" := VStr "x"]}]).
Proof.
  cbn zeta.
  destruct (key_and_execution_agree mockService "testPrefix" mockQueries
              "postData" postData (VObj {["name" := VStr "x"]})
              (VObj {["enabled" := VBool true]}))
    as (t & Ht & Hkey & _ & _ & Hcall);
    [reflexivity|reflexivity|simpl; lia|].
  assert (t = triadWithParams "testPrefix" "postData" postData) as ->.
  { rewrite mockQueries_postData in Ht. by injection Ht. }
  split; [exact Hkey|]. apply Hcall. reflexivity.
Defined.

(** The key of a read made by a hook that was created without a key
    function. *)
Lemma keyless_key expectsParams serviceFn args :
  ReactQuery.request (createUseQuery expectsParams serviceFn None args)
    !! "queryKey"
  = Some (match ownProps (arg 1 args) !! "queryKey" with
          | Some v => if truthy v then v else VArr []
          | None => VArr []
          end).
Proof.
  rewrite createUseQuery_key, computedKey_None. f_equal.
  unfold optProp, getProp, js_or.
  destruct (arg 1 args); cbn [is_nullish truthy ownProps];
    rewrite ?lookup_empty; cbn [default truthy];
    try done; by destruct (_ !! _).
Qed.

(** C10. A hook made by [createUseQuery] without a key function, in
    either source file, uses as key the [queryKey] of its [options]
    argument (the second argument of the hook) when that entry is there,
    and the empty array otherwise.  Hence two such hooks whose callers give
    no [options.queryKey] use one and the same key, the empty array,
    whatever function each wraps and whatever parameter it is given. *)
Theorem keyless_hooks_share_empty_key
    (e1 e2 : bool) (fn1 fn2 : Val) (args1 args2 : list Val) :
  let hook1 := createUseQuery e1 fn1 None in
  let hook2 :=
    Lib.createUseQuery
      {| Lib.expectsParams := e2; Lib.serviceFn := fn2;
         Lib.queryKey := None |} in
  (∀ k : QueryKey,
     ownProps (arg 1 args1) !! "queryKey" = Some (VArr k) →
     ReactQuery.request (hook1 args1) !! "queryKey" = Some (VArr k)) ∧
  (∀ k : QueryKey,
     ownProps (arg 1 args2) !! "queryKey" = Some (VArr k) →
     ReactQuery.request (hook2 args2) !! "queryKey" = Some (VArr k)) ∧
  (ownProps (arg 1 args1) !! "queryKey" = None →
   ReactQuery.request (hook1 args1) !! "queryKey" = Some (VArr [])) ∧
  (ownProps (arg 1 args2) !! "queryKey" = None →
   ReactQuery.request (hook2 args2) !! "queryKey" = Some (VArr [])) ∧
  (ownProps (arg 1 args1) !! "queryKey" = None →
   ownProps (arg 1 args2) !! "queryKey" = None →
   ReactQuery.request (hook1 args1) !! "queryKey"
   = ReactQuery.request (hook2 args2) !! "queryKey").
Proof.
  cbn zeta. rewrite Lib_createUseQuery_eq, !keyless_key.
  repeat split.
  - by intros k ->.
  - by intros k ->.
  - by intros ->.
  - by intros ->.
  - by intros -> ->.
Qed.

Lemma keyless_hooks_share_empty_key_mock :
  ReactQuery.request
    (createUseQuery false getData None []) !! "queryKey"
  = ReactQuery.request
      (Lib.createUseQuery
         {| Lib.expectsParams := true; Lib.serviceFn := postData;
            Lib.queryKey := None |}
         [VObj {["name" := VStr "x"]}; VObj {["enabled" := VBool true]}])
      !! "queryKey" ∧
  ReactQuery.request
    (createUseQuery true postData None
       [VNum 1; VObj {["queryKey" := VArr [VStr "mine"]]}]) !! "queryKey"
  = Some (VArr [VStr "mine"]).
Proof.
  split.
  - apply (keyless_hooks_share_empty_key false true getData postData []
             [VObj {["name" := VStr "x"]}; VObj {["enabled" := VBool true]}]);
      reflexivity.
  - apply (keyless_hooks_share_empty_key true true postData postData
             [VNum 1; VObj {["queryKey" := VArr [VStr "mine"]]}] []).
    reflexivity.
Defined.

(** * Further properties of the code *)

(** ** Helper facts *)

Lemma compiledTriad_useMutation ns op fn :
  useMutation (compiledTriad ns op fn) = createUseMutation fn.
Proof. unfold compiledTriad. by case_bool_decide. Qed.

Lemma compiledTriad_read_key ns op fn args :
  ReactQuery.request (useQuery (compiledTriad ns op fn) args) !! "queryKey"
  = Some (VArr [VStr ns; VStr op; arg 0 args]).
Proof.
  unfold compiledTriad.
  case_bool_decide; cbn [useQuery triadWithParams triadWithoutParams];
    by rewrite createUseQuery_key, computedKey_Some.
Qed.

Lemma compiledTriad_read_other ns op fn args k :
  k ≠ "queryKey" →
  ReactQuery.request (useQuery (compiledTriad ns op fn) args) !! k
  = spread (getOptions (bool_decide (0 < fn_length fn)) args)
      {["queryFn" := VThunk fn [arg 0 args]]} !! k.
Proof.
  intros Hk. unfold compiledTriad.
  case_bool_decide; cbn [useQuery triadWithParams triadWithoutParams];
    cbn; by rewrite lookup_insert_ne.
Qed.

(** The property of an array, or of a string, at an index. *)
Lemma indexed_lookup_from {A : Type} (f : A → Val) (l : list A) (n i : nat) :
  (list_to_map (imap (λ j x, (pretty (n + j), f x)) l) : gmap string Val)
    !! pretty (n + i) = f <$> l !! i.
Proof.
  revert n i. induction l as [|x l IH]; intros n i; [done|].
  cbn [imap]. rewrite list_to_map_cons. destruct i as [|i].
  - by rewrite lookup_insert_eq.
  - rewrite lookup_insert_ne.
    2:{ intros Heq. apply (inj pretty) in Heq. lia. }
    assert (Hext : imap ((λ j x, (pretty (n + j), f x)) ∘ S) l
                   = imap (λ j x, (pretty (S n + j), f x)) l).
    { apply imap_ext. intros j y _. cbn. do 2 f_equal. lia. }
    rewrite Hext. replace (n + S i) with (S n + i) by lia. apply IH.
Qed.

Lemma indexed_lookup {A : Type} (f : A → Val) (l : list A) (i : nat) :
  indexed f l !! pretty i = f <$> l !! i.
Proof. apply (indexed_lookup_from f l 0 i). Qed.

Lemma indexed_values {A : Type} (f : A → Val) (l : list A) k v :
  indexed f l !! k = Some v → ∃ x, v = f x.
Proof.
  unfold indexed. intros H. apply elem_of_list_to_map_2 in H.
  apply list_elem_of_lookup in H as [i H].
  rewrite list_lookup_imap in H.
  destruct (l !! i) as [x|]; [|done]. injection H as _ <-. eauto.
Qed.

(** A service without function-valued properties leaves the table as the
    literal made it. *)
Lemma compiled_without_functions service ns (queries : Queries) :
  createQueriesFromService service ns = Return queries →
  (∀ key v, ownProps service !! key = Some v → typeof_function v = false) →
  queries = ∅.
Proof.
  intros Hc Hnone.
  assert (Hall : ∀ key, queries !! key = None).
  { intros key. rewrite (compiled_lookup _ _ _ Hc).
    destruct (ownProps service !! key) as [v|] eqn:Hown; [|done].
    by rewrite (Hnone _ _ Hown). }
  assert (Hent : entries queries = ∅).
  { apply map_eq. intros key.
    rewrite (compiled_entries _ _ _ key Hc), Hall, lookup_empty.
    by destruct (decide _). }
  assert (Hproto : prototype queries = None).
  { by rewrite (compiled_prototype _ _ _ Hc), Hall. }
  destruct queries as [e p]. cbn in Hent, Hproto. by subst.
Qed.

(** ** The write path *)

(** X1. The mutation hook of a compiled operation hands the wrapped
    function itself to the runtime as [mutationFn]: when the runtime runs
    it with some variables, the wrapped function is called with exactly
    those variables.  No key is attached: the request has a [queryKey]
    only if the options bag has one.  The bag must not carry a
    [mutationFn] of its own. *)
Theorem mutation_passes_variables
    service ns queries op formals ref props options variables :
  createQueriesFromService service ns = Return queries →
  ownProps service !! op = Some (VFun formals ref props) →
  ownProps options !! "mutationFn" = None →
  ∃ t,
    queries !! op = Some t ∧
    wrappedCall (useMutation t [options]) "mutationFn" [variables]
      = Some (VFun formals ref props, [variables]) ∧
    ReactQuery.request (useMutation t [options]) !! "queryKey"
      = ownProps options !! "queryKey".
Proof.
  intros Hc Hown Hno. exists (compiledTriad ns op (VFun formals ref props)).
  split; [by rewrite (compiled_lookup _ _ _ Hc), Hown|].
  rewrite compiledTriad_useMutation. unfold wrappedCall, createUseMutation.
  cbn [ReactQuery.request arg nth]. split.
  - by rewrite spread_exec_entry, Hno.
  - by apply spread_other_entry.
Qed.

Lemma mutation_passes_variables_postData :
  wrappedCall
    (useMutation (triadWithParams "testPrefix" "postData" postData)
       [VObj {["retry" := VNum 3]}])
    "mutationFn" [VObj {["name" := VStr "x"]}]
  = Some (postData, [VObj {["name" := VStr "x"]}]).
Proof.
  destruct (mutation_passes_variables mockService "testPrefix" mockQueries
              "postData" [Plain] 2 ∅ (VObj {["retry" := VNum 3]})
              (VObj {["name" := VStr "x"]}))
    as (t & Ht & Hcall & _); [reflexivity|reflexivity|reflexivity|].
  assert (t = triadWithParams "testPrefix" "postData" postData) as ->.
  { rewrite mockQueries_postData in Ht. by injection Ht. }
  exact Hcall.
Defined.

(** ** Keys *)

(** X2. For every compiled triad, the key under which a read is registered
    is the triad's own [queryKey] function applied to the first argument of
    the read; a [queryKey] in the options never changes it. *)
Theorem read_key_is_triad_key service ns queries op t args :
  createQueriesFromService service ns = Return queries →
  queries !! op = Some t →
  ReactQuery.request (useQuery t args) !! "queryKey"
  = Some (VArr (queryKey t [arg 0 args])).
Proof.
  intros Hc Ht.
  destruct (compiled_triad_inv _ _ _ _ _ Hc Ht) as (fn & _ & _ & ->).
  by rewrite compiledTriad_read_key, compiledTriad_queryKey.
Qed.

Lemma read_key_is_triad_key_postData :
  ReactQuery.request
    (useQuery (triadWithParams "testPrefix" "postData" postData)
       [VNum 5; VObj {["queryKey" := VArr [VStr "mine"]]}]) !! "queryKey"
  = Some (VArr (queryKey (triadWithParams "testPrefix" "postData" postData)
                  [VNum 5])).
Proof.
  apply (read_key_is_triad_key mockService "testPrefix" mockQueries
           "postData"); reflexivity.
Defined.

(** X3. Keys of compiled operations are injective in the namespace, the
    name and the parameter together, also across two compiled services:
    two keys are equal only when all three agree. *)
Theorem key_injective_across_services
    service1 service2 ns1 ns2 queries1 queries2 op1 op2 t1 t2 p1 p2 :
  createQueriesFromService service1 ns1 = Return queries1 →
  createQueriesFromService service2 ns2 = Return queries2 →
  queries1 !! op1 = Some t1 →
  queries2 !! op2 = Some t2 →
  queryKey t1 [p1] = queryKey t2 [p2] ↔ ns1 = ns2 ∧ op1 = op2 ∧ p1 = p2.
Proof.
  intros Hc1 Hc2 Ht1 Ht2.
  destruct (compiled_triad_inv _ _ _ _ _ Hc1 Ht1) as (fn1 & _ & _ & ->).
  destruct (compiled_triad_inv _ _ _ _ _ Hc2 Ht2) as (fn2 & _ & _ & ->).
  rewrite !compiledTriad_queryKey. cbn [arg nth]. split.
  - by intros [= -> -> ->].
  - by intros (-> & -> & ->).
Qed.

Lemma key_injective_across_services_mock :
  queryKey (triadWithoutParams "posts" "getData" getData) [VNum 1]
  ≠ queryKey (triadWithoutParams "testPrefix" "getData" getData) [VNum 1].
Proof.
  assert (Hp : createQueriesFromService mockService "posts"
               = Return (foldl (registerKey mockService "posts") ∅
                           (map_to_list (ownProps mockService)).*1))
    by reflexivity.
  pose proof (key_injective_across_services mockService mockService
                "posts" "testPrefix" _ mockQueries "getData" "getData"
                (triadWithoutParams "posts" "getData" getData)
                (triadWithoutParams "testPrefix" "getData" getData)
                (VNum 1) (VNum 1) Hp eq_refl eq_refl eq_refl) as [H _].
  intros Heq. destruct (H Heq) as [Hns _]. discriminate Hns.
Defined.

(** X4. The namespace enters a compiled table only through the keys.  Two
    tables compiled from one service under two namespaces have entries at
    the same names, equal mutation hooks, and read hooks whose requests
    differ at most at [queryKey]. *)
Theorem namespace_only_in_key service ns1 ns2 queries1 queries2 :
  createQueriesFromService service ns1 = Return queries1 →
  createQueriesFromService service ns2 = Return queries2 →
  dom (entries queries1) = dom (entries queries2) ∧
  ∀ op t1 t2,
    queries1 !! op = Some t1 →
    queries2 !! op = Some t2 →
    useMutation t1 = useMutation t2 ∧
    ∀ args k, k ≠ "queryKey" →
      ReactQuery.request (useQuery t1 args) !! k
      = ReactQuery.request (useQuery t2 args) !! k.
Proof.
  intros Hc1 Hc2. split.
  - apply set_eq. intros op. rewrite !elem_of_dom.
    rewrite (compiled_entries _ _ _ op Hc1), (compiled_entries _ _ _ op Hc2).
    destruct (decide (op = "__proto__")); [done|].
    rewrite (compiled_lookup _ _ _ Hc1), (compiled_lookup _ _ _ Hc2).
    destruct (ownProps service !! op) as [fn|]; [|done].
    destruct (typeof_function fn); [|done]. split; eauto.
  - intros op t1 t2 Ht1 Ht2.
    rewrite (compiled_lookup _ _ _ Hc1) in Ht1.
    rewrite (compiled_lookup _ _ _ Hc2) in Ht2.
    destruct (ownProps service !! op) as [fn|]; [|done].
    destruct (typeof_function fn); [|done].
    injection Ht1 as <-. injection Ht2 as <-. split.
    + by rewrite !compiledTriad_useMutation.
    + intros args k Hk. by rewrite !compiledTriad_read_other.
Qed.

Lemma namespace_only_in_key_mock :
  ReactQuery.request
    (useQuery (triadWithParams "posts" "postData" postData)
       [VNum 1; VObj {["enabled" := VBool false]}]) !! "enabled"
  = ReactQuery.request
      (useQuery (triadWithParams "testPrefix" "postData" postData)
         [VNum 1; VObj {["enabled" := VBool false]}]) !! "enabled".
Proof.
  assert (Hp : createQueriesFromService mockService "posts"
               = Return (foldl (registerKey mockService "posts") ∅
                           (map_to_list (ownProps mockService)).*1))
    by reflexivity.
  destruct (namespace_only_in_key mockService "posts" "testPrefix" _
              mockQueries Hp) as [_ H]; [reflexivity|].
  destruct (H "postData" _ _ eq_refl eq_refl) as [_ Hreq].
  apply Hreq. discriminate.
Defined.

(** X5. Whatever the key function and the arguments, the key that
    [createUseQuery] hands to the runtime is never a falsy value
    ([undefined], [null], [false], [0] or the empty string): the chain of
    [||] ends in the array literal. *)
Theorem read_key_never_falsy expectsParams serviceFn keyFn args :
  ∃ key,
    ReactQuery.request (createUseQuery expectsParams serviceFn keyFn args)
      !! "queryKey" = Some key ∧
    truthy key = true.
Proof.
  exists (computedKey keyFn args). split; [apply createUseQuery_key|].
  unfold computedKey, js_or.
  destruct (truthy (optCall keyFn (arg 0 args))) eqn:H1;
    [by rewrite H1|].
  destruct (truthy (optProp (arg 1 args) "queryKey")) eqn:H2;
    [by rewrite H2|done].
Qed.

(** X6. Without a key function, a [queryKey] that is in the options but
    falsy counts as absent: the key is the empty array. *)
Theorem falsy_options_key_ignored expectsParams serviceFn args v :
  ownProps (arg 1 args) !! "queryKey" = Some v →
  truthy v = false →
  ReactQuery.request (createUseQuery expectsParams serviceFn None args)
    !! "queryKey" = Some (VArr []).
Proof. intros Hv Hf. by rewrite keyless_key, Hv, Hf. Qed.

Lemma falsy_options_key_ignored_null :
  ReactQuery.request
    (createUseQuery true postData None
       [VNum 1; VObj {["queryKey" := VNull]}]) !! "queryKey"
  = Some (VArr []).
Proof.
  apply (falsy_options_key_ignored true postData
           [VNum 1; VObj {["queryKey" := VNull]}] VNull); reflexivity.
Defined.



(** ** The two source files of [createUseQuery] *)

(** X8. The hook made by the object-argument variant of
    src/lib/create-use-query.ts makes, on every list of arguments, the same
    call to the runtime as the hook made by the positional variant of
    src/create-use-query.ts from the same three components. *)
Theorem Lib_createUseQuery_agrees (params : Lib.CreateUseQueryParams) args :
  Lib.createUseQuery params args
  = createUseQuery (Lib.expectsParams params) (Lib.serviceFn params)
      (Lib.queryKey params) args.
Proof. by destruct params. Qed.

(** ** Reads of a zero-arity operation without arguments *)

(** X9. A read of a compiled zero-arity operation that is given no
    argument hands the runtime exactly two entries: the key of [key()],
    that is [[ns, op, undefined]], and an execution function that calls
    the wrapped function with [undefined]. *)
Theorem zero_arity_read_without_arguments service ns queries op fn :
  createQueriesFromService service ns = Return queries →
  ownProps service !! op = Some fn →
  typeof_function fn = true →
  fn_length fn = 0 →
  ∃ t,
    queries !! op = Some t ∧
    useQuery t []
    = ReactQuery.useQuery
        {["queryKey" := VArr (queryKey t []);
          "queryFn" := VThunk fn [VUndefined]]} ∧
    queryKey t [] = [VStr ns; VStr op; VUndefined].
Proof.
  intros Hc Hown Hfn Hlen. exists (triadWithoutParams ns op fn).
  split.
  { rewrite (compiled_lookup _ _ _ Hc), Hown, Hfn. unfold compiledTriad.
    by rewrite Hlen, bool_decide_eq_false_2 by lia. }
  split; [|done].
  cbn [useQuery queryKey triadWithoutParams]. unfold createUseQuery, spread.
  cbn [arg nth ownProps]. by rewrite (left_id_L ∅ (∪)).
Qed.

Lemma zero_arity_read_without_arguments_getData :
  useQuery (triadWithoutParams "testPrefix" "getData" getData) []
  = ReactQuery.useQuery
      {["queryKey" := VArr [VStr "testPrefix"; VStr "getData"; VUndefined];
        "queryFn" := VThunk getData [VUndefined]]}.
Proof.
  destruct (zero_arity_read_without_arguments mockService "testPrefix"
              mockQueries "getData" getData)
    as (t & Ht & Hreq & _); [reflexivity|reflexivity|reflexivity|reflexivity|].
  assert (t = triadWithoutParams "testPrefix" "getData" getData) as ->.
  { rewrite mockQueries_getData in Ht. by injection Ht. }
  exact Hreq.
Defined.

(** ** Precedence of the key function *)

(** X15. When a key function was registered, the key handed to the runtime
    is that function applied to the first argument of the hook, whatever
    [queryKey] the options hold: a key function returns a [QueryKey], an
    array, and an array is truthy.  The [queryKey] of the options, the
    second argument, is read only when no key function was registered. *)
Theorem key_function_takes_precedence expectsParams serviceFn keyFn args :
  ReactQuery.request
    (createUseQuery expectsParams serviceFn (Some keyFn) args) !! "queryKey"
  = Some (VArr (keyFn [arg 0 args])) ∧
  ReactQuery.request
    (createUseQuery expectsParams serviceFn None args) !! "queryKey"
  = Some (optProp (arg 1 args) "queryKey" ||| VArr []).
Proof. split; apply createUseQuery_key. Qed.

(** ** How the compiled table follows the service *)

(** X10. Setting one property of a service object, at a name other than
    [__proto__], changes the entries of the compiled table at that name
    only: a function value puts its triad there, any other value removes
    the entry.  The prototype of the table does not change. *)
Theorem compile_insert (m : gmap string Val) ns key v queries queries' :
  key ≠ "__proto__" →
  createQueriesFromService (VObj m) ns = Return queries →
  createQueriesFromService (VObj (<[key := v]> m)) ns = Return queries' →
  entries queries' =
    (if typeof_function v
     then <[key := if bool_decide (0 < fn_length v)
                   then triadWithParams ns key v
                   else triadWithoutParams ns key v]> (entries queries)
     else delete key (entries queries)) ∧
  prototype queries' = prototype queries.
Proof.
  intros Hkey Hc Hc'. split.
  - apply map_eq. intros k.
    rewrite (compiled_entries _ _ _ k Hc'), (compiled_lookup _ _ _ Hc').
    cbn [ownProps].
    assert (Hk : entries queries !! k =
                 if decide (k = "__proto__") then None else
                 match m !! k with
                 | Some fn =>
                     if typeof_function fn
                     then Some (compiledTriad ns k fn) else None
                 | None => None
                 end).
    { rewrite (compiled_entries _ _ _ k Hc).
      by rewrite (compiled_lookup _ _ _ Hc). }
    destruct (decide (k = key)) as [->|Hne].
    + rewrite decide_False, lookup_insert_eq by done.
      destruct (typeof_function v);
        by rewrite ?lookup_insert_eq, ?lookup_delete_eq.
    + rewrite (lookup_insert_ne m) by done.
      destruct (typeof_function v);
        by rewrite ?lookup_insert_ne, ?lookup_delete_ne by done.
  - rewrite (compiled_prototype _ _ _ Hc'), (compiled_prototype _ _ _ Hc).
    rewrite (compiled_lookup _ _ _ Hc'), (compiled_lookup _ _ _ Hc).
    cbn [ownProps]. by rewrite lookup_insert_ne.
Qed.

(** Giving [mockService] a third function adds its triad to the table of
    [mockService]; replacing [getData] by a number removes its entry. *)
Lemma compile_insert_mock :
  (∃ queries',
     createQueriesFromService
       (VObj (<["listAll" := getData]> (ownProps mockService))) "testPrefix"
     = Return queries' ∧
     entries queries'
     = <["listAll" := triadWithoutParams "testPrefix" "listAll" getData]>
         (entries mockQueries) ∧
     entries mockQueries !! "listAll" = None) ∧
  (∃ queries',
     createQueriesFromService
       (VObj (<["getData" := VNum 1]> (ownProps mockService))) "testPrefix"
     = Return queries' ∧
     entries queries' = delete "getData" (entries mockQueries) ∧
     is_Some (entries mockQueries !! "getData")).
Proof.
  split.
  - eexists. split; [reflexivity|]. split; [|reflexivity].
    apply (compile_insert (ownProps mockService) "testPrefix" "listAll"
             getData mockQueries _); [discriminate|reflexivity|reflexivity].
  - eexists. split; [reflexivity|]. split; [|by eexists].
    apply (compile_insert (ownProps mockService) "testPrefix" "getData"
             (VNum 1) mockQueries _); [discriminate|reflexivity|reflexivity].
Defined.

(** X11. Compiling the union of two service objects that share no name
    gives a table whose entries are the union of the entries of their
    compiled tables. *)
Theorem compile_disjoint_union
    (m1 m2 : gmap string Val) ns queries1 queries2 queries :
  m1 ##ₘ m2 →
  createQueriesFromService (VObj m1) ns = Return queries1 →
  createQueriesFromService (VObj m2) ns = Return queries2 →
  createQueriesFromService (VObj (m1 ∪ m2)) ns = Return queries →
  entries queries = entries queries1 ∪ entries queries2.
Proof.
  intros Hdisj Hc1 Hc2 Hc. apply map_eq. intros k.
  rewrite lookup_union, (compiled_entries _ _ _ k Hc),
    (compiled_entries _ _ _ k Hc1), (compiled_entries _ _ _ k Hc2).
  destruct (decide (k = "__proto__")); [done|].
  rewrite (compiled_lookup _ _ _ Hc), (compiled_lookup _ _ _ Hc1),
    (compiled_lookup _ _ _ Hc2).
  cbn [ownProps]. rewrite lookup_union.
  specialize (Hdisj k).
  destruct (m1 !! k) as [v1|], (m2 !! k) as [v2|]; try done;
    cbn; by destruct (typeof_function _).
Qed.

Lemma compile_disjoint_union_mock :
  entries mockQueries
  = entries
      (foldl (registerKey (VObj {["getData" := getData]}) "testPrefix") ∅
         ["getData"])
    ∪ entries
        (foldl (registerKey (VObj {["postData" := postData]}) "testPrefix") ∅
           ["postData"]).
Proof.
  assert (Hdisj : ({["getData" := getData]} : gmap string Val)
                  ##ₘ {["postData" := postData]}).
  { apply map_disjoint_singleton_l. by apply lookup_singleton_ne. }
  exact (compile_disjoint_union {["getData" := getData]}
           {["postData" := postData]} "testPrefix" _ _ mockQueries
           Hdisj eq_refl eq_refl eq_refl).
Defined.

(** X12. The compiled table is the empty object, without entries and with
    its prototype untouched, exactly when the service has no
    function-valued enumerable property. *)
Theorem compile_empty_iff service ns (queries : Queries) :
  createQueriesFromService service ns = Return queries →
  queries = ∅ ↔
  ∀ key v, ownProps service !! key = Some v → typeof_function v = false.
Proof.
  intros Hc. split.
  - intros -> key v Hown.
    pose proof (compiled_lookup _ _ _ Hc key) as Hk.
    rewrite queries_lookup_empty, Hown in Hk. by destruct (typeof_function v).
  - by apply (compiled_without_functions _ _ _ Hc).
Qed.

Lemma compile_empty_iff_mock :
  foldl (registerKey (VObj {["version" := VNum 3]}) "testPrefix") ∅
    (map_to_list (ownProps (VObj {["version" := VNum 3]}))).*1 = ∅.
Proof.
  apply (proj2 (compile_empty_iff (VObj {["version" := VNum 3]})
                  "testPrefix" _ eq_refl)).
  intros key v Hown. cbn [ownProps] in Hown.
  apply lookup_singleton_Some in Hown as [_ <-].
  reflexivity.
Defined.

(** X13. A service that is a number, a boolean or a string compiles,
    without error, to the empty table: the characters of a string are
    enumerated but none is a function.  A service that is itself a
    function compiles as the object of its own enumerable properties. *)
Theorem compile_primitive_is_empty ns n b s formals ref props :
  createQueriesFromService (VNum n) ns = Return ∅ ∧
  createQueriesFromService (VBool b) ns = Return ∅ ∧
  createQueriesFromService (VStr s) ns = Return ∅ ∧
  createQueriesFromService (VFun formals ref props) ns
  = createQueriesFromService (VObj props) ns.
Proof.
  split; [done|]. split; [done|]. split; [|done].
  destruct (compiled_returns (VStr s) ns eq_refl) as [queries Hc].
  rewrite Hc. f_equal.
  apply (compiled_without_functions _ _ _ Hc). cbn [ownProps].
  intros key v Hown. by apply indexed_values in Hown as [c ->].
Qed.

(** X14. A service that is an array is compiled by index: the table has a
    triad under the decimal name of every index that holds a function, of
    the arity that function declares, and nothing under the index of
    another value or beyond the end. *)
Theorem compile_array_by_index (l : list Val) ns queries (i : nat) :
  createQueriesFromService (VArr l) ns = Return queries →
  queries !! pretty i =
    match l !! i with
    | Some fn =>
        if typeof_function fn
        then Some (if bool_decide (0 < fn_length fn)
                   then triadWithParams ns (pretty i) fn
                   else triadWithoutParams ns (pretty i) fn)
        else None
    | None => None
    end.
Proof.
  intros Hc. rewrite (compiled_lookup _ _ _ Hc). cbn [ownProps].
  rewrite indexed_lookup. by destruct (l !! i).
Qed.

Lemma compile_array_by_index_mock :
  foldl (registerKey (VArr [getData; VNull; postData]) "testPrefix") ∅
    (map_to_list (ownProps (VArr [getData; VNull; postData]))).*1 !! "2"
  = Some (triadWithParams "testPrefix" "2" postData).
Proof.
  exact (compile_array_by_index [getData; VNull; postData] "testPrefix" _ 2
           eq_refl).
Defined.

(** ** The name [__proto__] *)

(** X16. The compiled table never has an entry named [__proto__].  A
    function that the service holds under that name is compiled all the
    same, but the assignment makes its triad the prototype of the table;
    without such a function the prototype stays as the literal made
    it. *)
Theorem compile_proto_is_prototype service ns queries :
  createQueriesFromService service ns = Return queries →
  entries queries !! "__proto__" = None ∧
  prototype queries =
    match ownProps service !! "__proto__" with
    | Some fn =>
        if typeof_function fn
        then Some (if bool_decide (0 < fn_length fn)
                   then triadWithParams ns "__proto__" fn
                   else triadWithoutParams ns "__proto__" fn)
        else None
    | None => None
    end.
Proof.
  intros Hc. split; [by apply (compiled_no_own_proto _ _ _ Hc)|].
  by rewrite (compiled_prototype _ _ _ Hc), (compiled_lookup _ _ _ Hc).
Qed.

Lemma compile_proto_is_prototype_mock :
  prototype
    (foldl (registerKey (VObj {["__proto__" := postData]}) "testPrefix") ∅
       ["__proto__"])
  = Some (triadWithParams "testPrefix" "__proto__" postData).
Proof.
  exact (proj2 (compile_proto_is_prototype (VObj {["__proto__" := postData]})
                  "testPrefix" _ eq_refl)).
Defined.
